(** * SAML demo app (main.go): a shallow embedding of its four HTTP handlers

    The program registers four handlers on an [http.ServeMux]:
    [GET /{$}], [GET /logout], [GET /saml-redirect] and
    [GET /ssoready-callback].  Each handler reads a [Request], may call the
    SSOReady client once, and talks to the [ResponseWriter] through
    [http.SetCookie], [http.Redirect] and [Template.Execute].

    Go strings are byte strings ([string]); maps are [gmap]; a pointer field
    ([*string]) is an [option]; a Go [panic] is an outcome of its own.  A
    handler is a function from the state of the remote SSOReady service to an
    outcome, the new state of the service, and the list of calls the handler
    made, in program order.  What [net/http] makes of those calls on the
    wire (the sanitized cookie value, the [Location] of a redirect, the
    cookies it reads back from a request) is modelled next to them. *)

From Stdlib Require Import ZArith Ascii String List Lia.
From stdpp Require Import base option list gmap strings.

Local Open Scope Z_scope.

(** ** Package [strings] *)

Module strings.

(** [strings.Index(s, substr)]: position of the first instance of [substr]
    in [s]; Go's [-1] is [None]. *)
Definition Index (s substr : string) : option nat := String.index 0 substr s.

(** The slice [s[lo:hi]]. *)
Definition slice (s : string) (lo hi : nat) : string :=
  String.substring lo (hi - lo) s.

(** [strings.Cut(s, sep)]: slices [s] around the first instance of [sep]. *)
Definition Cut (s sep : string) : string * string * bool :=
  match Index s sep with
  | Some i =>
      (slice s 0 i, slice s (i + String.length sep) (String.length s), true)
  | None => (s, EmptyString, false)
  end.

(** [strings.IndexByte(s, c) >= 0]. *)
Fixpoint ContainsByte (s : string) (c : ascii) : bool :=
  match s with
  | EmptyString => false
  | String c' s' => if Ascii.eqb c' c then true else ContainsByte s' c
  end.

End strings.

(** ** Package [net/url] *)

Module url.

(** [url.Values] is [map[string][]string]. *)
Abbreviation Values := (gmap string (list string)).

(** [Values.Get(key)]: the first value of [key], or the empty string. *)
Definition Get (v : Values) (key : string) : string :=
  match v !! key with
  | Some (x :: _) => x
  | _ => EmptyString
  end.

(** The parts of a [url.URL] a handler can see; [Query] is the result of
    [URL.Query()], the parsed [RawQuery]. *)
Record URL := { Path : string; Query : Values }.

End url.

(** ** Package [ssoready]: requests and responses of the SAML client *)

Module ssoready.

(** A Go [error] value, by its message. *)
Definition error := string.

Record GetSAMLRedirectURLRequest :=
  { OrganizationExternalID : option string }.
Record GetSAMLRedirectURLResponse := { RedirectURL : option string }.

Record RedeemSAMLAccessCodeRequest := { SAMLAccessCode : option string }.
Record RedeemSAMLAccessCodeResponse := { Email : option string }.

(** The two operations of [ssoreadyClient.SAML] the program uses.  The
    service is remote and keeps its own state [B] (issued and redeemed
    codes): each call takes the state and gives Go's pair
    [(res, err)] with the state after the call. *)
Record Client (B : Type) := {
  GetSAMLRedirectURL :
    GetSAMLRedirectURLRequest -> B ->
    (option GetSAMLRedirectURLResponse * option error) * B;
  RedeemSAMLAccessCode :
    RedeemSAMLAccessCodeRequest -> B ->
    (option RedeemSAMLAccessCodeResponse * option error) * B
}.
Arguments GetSAMLRedirectURL {B} _ _ _.
Arguments RedeemSAMLAccessCode {B} _ _ _.

End ssoready.

(** ** Package [path] *)

Module path.





End path.

(** ** Package [net/http]: requests, cookies, and the handler monad *)

Module http.

(** [http.Cookie]; the fields the program leaves at their zero value
    ([Path], [Domain], [Expires], [Secure], ...) are not listed.
    [MaxAge < 0] means: delete the cookie now. *)
Record Cookie := { Name : string; Value : string; MaxAge : Z }.

Record Request := {
  Method : string;
  URL : url.URL;
  Header : gmap string (list string);
  Cookies : list Cookie
}.

(** [r.Cookie(name)]: the first cookie of that name sent with the
    request; [None] is Go's [(nil, ErrNoCookie)]. *)
Definition Request_Cookie (r : Request) (name : string) : option Cookie :=
  if String.eqb name EmptyString then None
  else List.find (fun c => String.eqb (Name c) name) (Cookies r).

Definition StatusFound : Z := 302.

(** What a handler does, as seen from outside: its calls to the SSOReady
    client and to the response writer. *)
Inductive Event :=
| EvGetSAMLRedirectURL (req : ssoready.GetSAMLRedirectURLRequest)
| EvRedeemSAMLAccessCode (req : ssoready.RedeemSAMLAccessCodeRequest)
| EvSetCookie (c : Cookie)
| EvRedirect (url : string) (code : Z)
| EvWrite (body : string).

(** The value a [panic] carries. *)
Inductive PanicValue :=
| PanicError (err : ssoready.error)
| NilPointerDereference.

Inductive Outcome (A : Type) :=
| Returned (a : A)
| Panicked (v : PanicValue).
Arguments Returned {A} a.
Arguments Panicked {A} v.

(** The result of running a handler: how it ended, the state of the
    service afterwards, the calls it made. *)
Record Run (B A : Type) := MkRun {
  outcome : Outcome A;
  service : B;
  trace : list Event
}.
Arguments MkRun {B A} _ _ _.
Arguments outcome {B A} _.
Arguments service {B A} _.
Arguments trace {B A} _.

Definition M (B A : Type) : Type := B -> Run B A.

Definition ret {B A} (a : A) : M B A := fun b => MkRun (Returned a) b [].

Definition bind {B A C} (m : M B A) (k : A -> M B C) : M B C :=
  fun b =>
    let r := m b in
    match outcome r with
    | Returned a =>
        let r' := k a (service r) in
        MkRun (outcome r') (service r') (trace r ++ trace r')
    | Panicked v => MkRun (Panicked v) (service r) (trace r)
    end.

Definition panic {B A} (v : PanicValue) : M B A :=
  fun b => MkRun (Panicked v) b [].

Definition emit {B} (e : Event) : M B unit :=
  fun b => MkRun (Returned tt) b [e].

(** [*p] *)
Definition deref {B A} (p : option A) : M B A :=
  match p with
  | Some a => ret a
  | None => panic NilPointerDereference
  end.

(** A call of the remote service: the call is recorded, the service
    moves to its next state, the handler gets Go's [(res, err)]. *)
Definition call {B Req Res} (ev : Req -> Event)
    (op : Req -> B -> Res * B) (req : Req) : M B Res :=
  fun b => let '(res, b') := op req b in MkRun (Returned res) b' [ev req].

(** [http.SetCookie(w, cookie)] and [http.Redirect(w, r, url, code)]: the
    trace records the call with its arguments.  What the call puts on the
    wire is not the arguments as they are: see [sentCookie] for the
    cookie and [Location] for the redirect, which is where the request of
    [Redirect] comes in. *)
Definition SetCookie {B} (c : Cookie) : M B unit := emit (EvSetCookie c).
Definition Redirect {B} (r : Request) (url : string) (code : Z) : M B unit :=
  emit (EvRedirect url code).

(** [w.Write(body)]: the response writer takes every write, so the
    error Go returns here is always [nil]. *)
Definition Write {B} (body : string) : M B (option ssoready.error) :=
  fun b => MkRun (Returned None) b [EvWrite body].

(** The events of a trace that write the response, and those that call
    the service. *)
Definition is_response (e : Event) : bool :=
  match e with
  | EvSetCookie _ | EvRedirect _ _ | EvWrite _ => true
  | _ => false
  end.
Definition responses (t : list Event) : list Event :=
  List.filter is_response t.
Definition service_calls (t : list Event) : list Event :=
  List.filter (fun e => negb (is_response e)) t.

(** *** Cookies on the wire *)

(** [validCookieValueByte(b)] *)
Definition validCookieValueByte (b : ascii) : bool :=
  (32 <=? nat_of_ascii b)%nat && (nat_of_ascii b <? 127)%nat &&
  negb (Ascii.eqb b "034") && negb (Ascii.eqb b ";") && negb (Ascii.eqb b "\").

(** [sanitizeOrWarn(fieldName, valid, v)]: [v] without the bytes that
    are not valid. *)
Fixpoint sanitizeOrWarn (valid : ascii -> bool) (v : string) : string :=
  match v with
  | EmptyString => EmptyString
  | String b v' =>
      if valid b then String b (sanitizeOrWarn valid v')
      else sanitizeOrWarn valid v'
  end.

(** [strings.ContainsAny(v, " ,")] *)
Fixpoint hasSpaceOrComma (v : string) : bool :=
  match v with
  | EmptyString => false
  | String b v' => Ascii.eqb b " " || Ascii.eqb b "," || hasSpaceOrComma v'
  end.

(** [sanitizeCookieValue(v)]: the value a [Set-Cookie] line carries for
    the cookie value [v]: invalid bytes dropped, and the rest between
    double quotes when it has a space or a comma. *)
Definition sanitizeCookieValue (v : string) : string :=
  let v := sanitizeOrWarn validCookieValueByte v in
  if String.eqb v EmptyString then v
  else if hasSpaceOrComma v
       then String "034" EmptyString +:+ v +:+ String "034" EmptyString
       else v.

(** A byte of an HTTP token. *)
Definition isTokenByte (b : ascii) : bool :=
  let n := nat_of_ascii b in
  ((48 <=? n) && (n <=? 57) || (65 <=? n) && (n <=? 90) ||
   (97 <=? n) && (n <=? 122))%nat ||
  strings.ContainsByte "!#$%&'*+-.^_`|~" b.

Fixpoint allBytes (ok : ascii -> bool) (s : string) : bool :=
  match s with
  | EmptyString => true
  | String b s' => ok b && allBytes ok s'
  end.

(** [isCookieNameValid(raw)]: a non-empty token. *)
Definition isCookieNameValid (raw : string) : bool :=
  negb (String.eqb raw EmptyString) && allBytes isTokenByte raw.

(** The cookie a call [http.SetCookie(w, c)] sends: none when the name
    is not valid, else [c] with its value sanitized. *)
Definition sentCookie (c : Cookie) : option Cookie :=
  if isCookieNameValid (Name c)
  then Some {| Name := Name c;
               Value := sanitizeCookieValue (Value c);
               MaxAge := MaxAge c |}
  else None.

(** [s] without its last byte, when that byte is a double quote. *)
Fixpoint dropClosingQuote (s : string) : option string :=
  match s with
  | EmptyString => None
  | String b EmptyString =>
      if Ascii.eqb b "034" then Some EmptyString else None
  | String b s' => String b <$> dropClosingQuote s'
  end.

(** [parseCookieValue(raw, true)]: the value of a cookie read from a
    [Cookie] line: surrounding double quotes are stripped, and a value
    with a byte that is not valid makes the cookie unreadable. *)
Definition parseCookieValue (raw : string) : option string :=
  let raw :=
    match raw with
    | String b rest =>
        if Ascii.eqb b "034" then default raw (dropClosingQuote rest) else raw
    | EmptyString => raw
    end in
  if allBytes validCookieValueByte raw then Some raw else None.

(** One cookie of a [Cookie] line as [readCookies] gives it, if it does:
    the name must be valid and the value readable. *)
Definition readCookie (name raw : string) : option Cookie :=
  if isCookieNameValid name
  then (fun v => {| Name := name; Value := v; MaxAge := 0 |}) <$>
         parseCookieValue raw
  else None.

(** A cookie value as a browser can send it in a [Cookie] line, where a
    semicolon ends the cookie and white space at the end of it is cut. *)
Definition isSpaceByte (b : ascii) : bool :=
  Ascii.eqb b " " || Ascii.eqb b "009" || Ascii.eqb b "010" || Ascii.eqb b "013".

Fixpoint endsWithSpace (s : string) : bool :=
  match s with
  | EmptyString => false
  | String b EmptyString => isSpaceByte b
  | String _ s' => endsWithSpace s'
  end.

Definition sendable (raw : string) : bool :=
  negb (strings.ContainsByte raw ";") && negb (endsWithSpace raw).

(** *** Redirects on the wire *)










End http.

Notation "x <- m ;; k" := (http.bind m (fun x => k))
  (at level 100, m at next level, right associativity).
Notation "m1 ;; m2" := (http.bind m1 (fun _ => m2))
  (at level 100, right associativity).


(** ** Package [html/template] *)

Module template.

(** What the template engine does with the two kinds of text it emits:
    the static text of the template, and a value put into an HTML text
    node (contextual escaping).  Both are functions of the text alone. *)
Record Engine := {
  static : string -> string;
  htmlEscaper : string -> string
}.

(** An argument of a pipeline: a field of the data ([.Email]) or a
    string constant. *)
Inductive Arg :=
| Field (name : string)
| Const (s : string).

(** A node of a parsed template: text, or the action [{{ or a b }}]. *)
Inductive Node :=
| Text (s : string)
| ActionOr (a b : Arg).

Definition Template := list Node.

(** A missing key of a [map[string]string] gives the zero value. *)
Definition evalArg (data : gmap string string) (a : Arg) : string :=
  match a with
  | Field name => default EmptyString (data !! name)
  | Const s => s
  end.

(** The builtin [or]: its first argument if that is not empty, else its
    last argument. *)
Definition or (x y : string) : string :=
  if String.eqb x EmptyString then y else x.

Definition execNode (E : Engine) (data : gmap string string) (n : Node)
    : string :=
  match n with
  | Text s => static E s
  | ActionOr a b => htmlEscaper E (or (evalArg data a) (evalArg data b))
  end.

Definition render (E : Engine) (t : Template) (data : gmap string string)
    : string :=
  String.concat EmptyString (List.map (execNode E data) t).

(** [t.Execute(w, data)]: the rendered page is written to [w] (the
    writes of its nodes, taken as one); the result is the error of that
    write. *)
Definition Execute {B} (E : Engine) (t : Template)
    (data : gmap string string) : http.M B (option ssoready.error) :=
  http.Write (render E t data).

End template.

(** ** The program *)

Definition nl : string := String "010"%char EmptyString.
Definition tab : string := String "009"%char EmptyString.
Definition dq : string := String "034"%char EmptyString.

Fixpoint tabs (n : nat) : string :=
  match n with
  | O => EmptyString
  | S n' => tab +:+ tabs n'
  end.

(** A quoted attribute value. *)
Definition q (s : string) : string := dq +:+ s +:+ dq.

(** One line of the template: its indentation, its pieces, a newline. *)
Definition ln (indent : nat) (pieces : list string) : string :=
  tabs indent +:+ String.concat EmptyString pieces +:+ nl.

(** The template text before the action. *)
Definition indexHead : string := String.concat EmptyString [
    ln 0 [];
    ln 0 ["<!doctype html>"];
    ln 0 ["<html>"];
    ln 1 ["<head>"];
    ln 2 ["<title>SAML Demo App using SSOReady</title>"];
    ln 2 ["<script src="; q "https://cdn.tailwindcss.com"; "></script>"];
    ln 1 ["</head>"];
    ln 1 ["<body>"];
    ln 2 ["<main class="; q "grid min-h-screen place-items-center py-32 px-8"; ">"];
    ln 3 ["<div class="; q "text-center"; ">"];
    ln 4 ["<h1 class="; q "mt-4 text-balance text-5xl font-semibold tracking-tight text-gray-900 sm:text-7xl"; ">"];
    tabs 5; "Hello, "
  ].

(** The template text after the action. *)
Definition indexTail : string := String.concat EmptyString [
    ln 0 ["!"];
    ln 4 ["</h1>"];
    ln 4 ["<p class="; q "mt-6 text-pretty text-lg font-medium text-gray-500 sm:text-xl/8"; ">"];
    ln 5 ["This is a SAML demo app, built using SSOReady."];
    ln 4 ["</p>"];
    ln 0 [];
    ln 4 ["<!-- submitting this form makes the user's browser do a GET /saml-redirect?email=... -->"];
    ln 4 ["<form method="; q "get"; " action="; q "/saml-redirect"; " class="; q "mt-10 max-w-lg mx-auto"; ">"];
    ln 5 ["<div class="; q "flex gap-x-4 items-center"; ">"];
    ln 6 ["<label for="; q "email-address"; " class="; q "sr-only"; ">Email address</label>"];
    ln 6 ["<input id="; q "email-address"; " name="; q "email"; " class=";
      q "min-w-0 flex-auto rounded-md border-0 px-3.5 py-2 text-gray-900 shadow-sm ring-1 ring-inset ring-gray-300 placeholder:text-gray-400 focus:ring-2 focus:ring-inset focus:ring-indigo-600 sm:text-sm sm:leading-6";
      " value="; q "john.doe@example.com"; " placeholder="; q "john.doe@example.com"; ">"];
    ln 6 ["<button type="; q "submit"; " class=";
      q "flex-none rounded-md bg-indigo-600 px-3.5 py-2.5 text-sm font-semibold text-white shadow-sm hover:bg-indigo-500 focus-visible:outline focus-visible:outline-2 focus-visible:outline-offset-2 focus-visible:outline-indigo-600";
      ">"];
    ln 7 ["Log in with SAML"];
    ln 6 ["</button>"];
    ln 6 ["<a href="; q "/logout"; " class="; q "px-3.5 py-2.5 text-sm font-semibold text-gray-900"; ">"];
    ln 7 ["Sign out"];
    ln 6 ["</a>"];
    ln 5 ["</div>"];
    ln 5 ["<p class="; q "mt-4 text-sm leading-6 text-gray-900"; ">"];
    ln 6 ["(Try any @example.com or @example.org email address.)"];
    ln 5 ["</p>"];
    ln 4 ["</form>"];
    ln 3 ["</div>"];
    ln 2 ["</main>"];
    ln 1 ["</body>"];
    ln 0 ["</html>"]
  ].

Definition indexTemplate : template.Template :=
  [ template.Text indexHead;
    template.ActionOr (template.Field "Email") (template.Const "logged-out user");
    template.Text indexTail ].

Section Main.

Context {B : Type}.

(** The global [ssoreadyClient] of [main], and the engine behind
    [indexTemplate]. *)
Variable ssoreadyClient : ssoready.Client B.
Variable engine : template.Engine.

(** [GET /{$}] *)
Definition handleIndex (r : http.Request) : http.M B unit :=
  let cookie := http.Request_Cookie r "email" in
  let email :=
    match cookie with
    | Some c => http.Value c
    | None => EmptyString
    end in
  err <- template.Execute engine indexTemplate {[ "Email" := email ]} ;;
  match err with
  | Some e => http.panic (http.PanicError e)
  | None => http.ret tt
  end.

(** [GET /logout] *)
Definition handleLogout (r : http.Request) : http.M B unit :=
  http.SetCookie
    {| http.Name := "email"; http.Value := EmptyString; http.MaxAge := -1 |} ;;
  http.Redirect r "/" http.StatusFound.

(** [GET /saml-redirect] *)
Definition handleSAMLRedirect (r : http.Request) : http.M B unit :=
  let '(_, domain, _) :=
    strings.Cut (url.Get (url.Query (http.URL r)) "email") "@" in
  res <- http.call http.EvGetSAMLRedirectURL
           (ssoready.GetSAMLRedirectURL ssoreadyClient)
           {| ssoready.OrganizationExternalID := Some domain |} ;;
  let '(getRedirectURLRes, err) := res in
  match err with
  | Some e => http.panic (http.PanicError e)
  | None =>
      getRedirectURLRes <- http.deref getRedirectURLRes ;;
      redirectURL <- http.deref (ssoready.RedirectURL getRedirectURLRes) ;;
      http.Redirect r redirectURL http.StatusFound
  end.

(** [GET /ssoready-callback] *)
Definition handleSSOReadyCallback (r : http.Request) : http.M B unit :=
  let samlAccessCode := url.Get (url.Query (http.URL r)) "saml_access_code" in
  res <- http.call http.EvRedeemSAMLAccessCode
           (ssoready.RedeemSAMLAccessCode ssoreadyClient)
           {| ssoready.SAMLAccessCode := Some samlAccessCode |} ;;
  let '(redeemRes, err) := res in
  match err with
  | Some e => http.panic (http.PanicError e)
  | None =>
      redeemRes <- http.deref redeemRes ;;
      email <- http.deref (ssoready.Email redeemRes) ;;
      http.SetCookie
        {| http.Name := "email"; http.Value := email; http.MaxAge := 0 |} ;;
      http.Redirect r "/" http.StatusFound
  end.

(** The routes [main] registers on its [ServeMux]. *)
Definition mux : list (string * (http.Request -> http.M B unit)) :=
  [ ("GET /{$}", handleIndex);
    ("GET /logout", handleLogout);
    ("GET /saml-redirect", handleSAMLRedirect);
    ("GET /ssoready-callback", handleSSOReadyCallback) ].

End Main.

(** ** The user agent

    The session of this program lives in the browser: a cookie jar, here
    by cookie name (every route of [mux] has a one-segment path, so all
    cookies of the program share the default path [/]).  The jar holds the
    values as they came over the wire.  A response that arrives updates the
    jar by its [Set-Cookie] lines ([http.sentCookie]); a negative [MaxAge]
    deletes the cookie.  A handler that panics sends nothing.  With a
    request the browser sends its jar, and the handler sees of it what
    [net/http] can read ([http.readCookie]). *)

Module browser.

Abbreviation Jar := (gmap string string).

Definition store (j : Jar) (c : http.Cookie) : Jar :=
  match http.sentCookie c with
  | Some c' =>
      if http.MaxAge c' <? 0 then delete (http.Name c') j
      else <[ http.Name c' := http.Value c' ]> j
  | None => j
  end.

Definition receive (j : Jar) (t : list http.Event) : Jar :=
  List.fold_left
    (fun j e => match e with http.EvSetCookie c => store j c | _ => j end)
    t j.

Definition after {B A} (j : Jar) (run : http.Run B A) : Jar :=
  match http.outcome run with
  | http.Returned _ => receive j (http.trace run)
  | http.Panicked _ => j
  end.

(** The identity the jar carries, if any. *)
Definition session (j : Jar) : option string := j !! "email".

(** The cookies of a request, as the handler reads them. *)
Definition cookieOf (kv : string * string) : option http.Cookie :=
  http.readCookie (fst kv) (snd kv).

Definition cookies (j : Jar) : list http.Cookie :=
  omap cookieOf (map_to_list j).

Definition request (j : Jar) (u : url.URL) : http.Request :=
  {| http.Method := "GET"; http.URL := u; http.Header := ∅;
     http.Cookies := cookies j |}.

End browser.

(** ** Two services to run the handlers against *)

(** A service that knows one organization and one access code, which it
    redeems once; its state is the list of codes already redeemed. *)
Definition demoClient : ssoready.Client (list string) := {|
  ssoready.GetSAMLRedirectURL req b :=
    match ssoready.OrganizationExternalID req with
    | Some org =>
        if String.eqb org "example.com"
        then (Some {| ssoready.RedirectURL := Some "https://idp.example/login?org=example.com" |}, None, b)
        else (None, Some "organization not found", b)
    | None => (None, Some "bad request", b)
    end;
  ssoready.RedeemSAMLAccessCode req b :=
    match ssoready.SAMLAccessCode req with
    | Some code =>
        if String.eqb code "abc123" && negb (existsb (String.eqb code) b)
        then (Some {| ssoready.Email := Some "john.doe@example.com" |}, None, code :: b)
        else (None, Some "invalid saml access code", b)
    | None => (None, Some "bad request", b)
    end
|}.

(** A service that answers every call with success. *)
Definition openClient : ssoready.Client unit := {|
  ssoready.GetSAMLRedirectURL req b :=
    (Some {| ssoready.RedirectURL := Some "https://idp.example/login" |}, None, b);
  ssoready.RedeemSAMLAccessCode req b :=
    (Some {| ssoready.Email := Some "john.doe@example.com" |}, None, b)
|}.

(** An engine that emits static text as it is and escapes the characters
    that are special in an HTML text node. *)
Definition escapeByte (c : ascii) : string :=
  if Ascii.eqb c "&" then "&amp;"
  else if Ascii.eqb c "<" then "&lt;"
  else if Ascii.eqb c ">" then "&gt;"
  else if Ascii.eqb c "034" then "&#34;"
  else if Ascii.eqb c "'" then "&#39;"
  else if Ascii.eqb c "+" then "&#43;"
  else String c EmptyString.

Fixpoint escapeText (s : string) : string :=
  match s with
  | EmptyString => EmptyString
  | String c s' => escapeByte c +:+ escapeText s'
  end.

Definition plainEngine : template.Engine :=
  {| template.static := fun s => s; template.htmlEscaper := escapeText |}.

(** A request for [path] with the given query parameters and cookies. *)
Definition get (path : string) (query : url.Values) (cookies : list http.Cookie)
    : http.Request :=
  {| http.Method := "GET";
     http.URL := {| url.Path := path; url.Query := query |};
     http.Header := ∅;
     http.Cookies := cookies |}.

(** The first value of a query parameter of the request. *)
Abbreviation param r key := (url.Get (url.Query (http.URL r)) key).

(** The cookie [handleSSOReadyCallback] sets for an identity, and the one
    [handleLogout] sets. *)
Abbreviation sessionCookie e :=
  {| http.Name := "email"; http.Value := e; http.MaxAge := 0 |}.
Abbreviation expiredCookie :=
  {| http.Name := "email"; http.Value := EmptyString; http.MaxAge := -1 |}.

Abbreviation orgRequest org := {| ssoready.OrganizationExternalID := Some org |}.
Abbreviation codeRequest code := {| ssoready.SAMLAccessCode := Some code |}.

(** The page [indexTemplate] renders for the name it greets. *)
Definition indexPage (E : template.Engine) (who : string) : string :=
  template.static E indexHead +:+
  template.htmlEscaper E who +:+
  template.static E indexTail.

(** A service that answers every call without error, with a response
    whose pointer field is the given one ([None] is Go's [nil]). *)
Definition answerClient (redirectURL email : option string)
    : ssoready.Client unit := {|
  ssoready.GetSAMLRedirectURL req b :=
    (Some {| ssoready.RedirectURL := redirectURL |}, None, b);
  ssoready.RedeemSAMLAccessCode req b :=
    (Some {| ssoready.Email := email |}, None, b)
|}.

(** What a client was asked. *)
Inductive Called :=
| CalledGetSAMLRedirectURL (req : ssoready.GetSAMLRedirectURLRequest)
| CalledRedeemSAMLAccessCode (req : ssoready.RedeemSAMLAccessCodeRequest).

(** A client that answers as [client] does and keeps, next to the state
    of [client], the list of the calls made to it. *)
Definition recording {B : Type} (client : ssoready.Client B)
    : ssoready.Client (B * list Called) := {|
  ssoready.GetSAMLRedirectURL req s :=
    let '(answer, b') := ssoready.GetSAMLRedirectURL client req (fst s) in
    (answer, (b', snd s ++ [CalledGetSAMLRedirectURL req]));
  ssoready.RedeemSAMLAccessCode req s :=
    let '(answer, b') := ssoready.RedeemSAMLAccessCode client req (fst s) in
    (answer, (b', snd s ++ [CalledRedeemSAMLAccessCode req]))
|}.




(** * Properties *)

(** ** What [net/http] leaves as it is *)

Lemma sanitizeOrWarn_valid (valid : ascii -> bool) (v : string) :
  http.allBytes valid v = true -> http.sanitizeOrWarn valid v = v.
Proof.
  induction v as [|b v IH]; intros Hv; [reflexivity|].
  cbn [http.allBytes] in Hv. apply andb_prop in Hv as [Hb Hv].
  cbn [http.sanitizeOrWarn]. rewrite Hb. f_equal. exact (IH Hv).
Qed.

Lemma sanitizeOrWarn_allBytes (valid : ascii -> bool) (v : string) :
  http.allBytes valid (http.sanitizeOrWarn valid v) = true.
Proof.
  induction v as [|b v IH]; [reflexivity|].
  cbn [http.sanitizeOrWarn]. destruct (valid b) eqn:Hb; [|exact IH].
  cbn [http.allBytes]. now rewrite Hb, IH.
Qed.


Lemma dropClosingQuote_append (v : string) :
  http.dropClosingQuote (v +:+ String "034" EmptyString) = Some v.
Proof.
  induction v as [|b v IH]; [reflexivity|].
  change (String b v +:+ String "034" EmptyString)
    with (String b (v +:+ String "034" EmptyString)).
  cbn [http.dropClosingQuote].
  destruct (v +:+ String "034" EmptyString) eqn:Happ.
  - destruct v; discriminate Happ.
  - rewrite IH. reflexivity.
Qed.

(** What the handler reads back of a value it has set: the value without
    its invalid bytes. *)
Lemma parseCookieValue_sanitized (v : string) :
  http.parseCookieValue (http.sanitizeCookieValue v) =
  Some (http.sanitizeOrWarn http.validCookieValueByte v).
Proof.
  unfold http.sanitizeCookieValue.
  pose proof (sanitizeOrWarn_allBytes http.validCookieValueByte v) as Hvalid.
  destruct (http.sanitizeOrWarn http.validCookieValueByte v) as [|b w] eqn:Hw;
    [reflexivity|].
  change (String.eqb (String b w) EmptyString) with false. cbv iota.
  destruct (http.hasSpaceOrComma (String b w)).
  - unfold http.parseCookieValue.
    change (String "034" EmptyString +:+ String b w +:+ String "034" EmptyString)
      with (String "034" (String b w +:+ String "034" EmptyString)).
    cbv beta iota. rewrite dropClosingQuote_append.
    cbn [default from_option id].
    change (Ascii.eqb "034" "034") with true. cbv iota.
    now rewrite Hvalid.
  - unfold http.parseCookieValue.
    assert (Ascii.eqb b "034" = false) as Hb.
    { cbn [http.allBytes] in Hvalid. apply andb_prop in Hvalid as [Hb _].
      unfold http.validCookieValueByte in Hb.
      destruct (Ascii.eqb b "034"); [|reflexivity].
      rewrite !andb_false_r in Hb. cbn in Hb. 
      repeat (rewrite ?andb_false_r, ?andb_false_l in Hb). discriminate Hb. }
    rewrite Hb. now rewrite Hvalid.
Qed.





(** ** [strings.Cut] at the separator [@] *)

Lemma index_at_first (pre rest : string) :
  strings.ContainsByte pre "@" = false ->
  String.index 0 "@" (pre +:+ "@" +:+ rest) = Some (String.length pre).
Proof.
  induction pre as [|c pre IH]; intros Hpre.
  - cbn [String.append String.index String.prefix String.length].
    destruct (ascii_dec "@" "@") as [_|Hne]; [|congruence].
    destruct rest; reflexivity.
  - cbn [strings.ContainsByte] in Hpre.
    destruct (Ascii.eqb c "@") eqn:Hc; [discriminate|].
    apply Ascii.eqb_neq in Hc.
    change (String c pre +:+ "@" +:+ rest)
      with (String c (pre +:+ "@" +:+ rest)).
    cbn [String.index String.prefix String.length].
    destruct (ascii_dec "@" c) as [Heq|_]; [congruence|].
    rewrite (IH Hpre). reflexivity.
Qed.

Lemma index_no_at (s : string) :
  strings.ContainsByte s "@" = false -> String.index 0 "@" s = None.
Proof.
  induction s as [|c s IH]; intros Hs.
  - reflexivity.
  - cbn [strings.ContainsByte] in Hs.
    destruct (Ascii.eqb c "@") eqn:Hc; [discriminate|].
    apply Ascii.eqb_neq in Hc.
    cbn [String.index String.prefix].
    destruct (ascii_dec "@" c) as [Heq|_]; [congruence|].
    rewrite (IH Hs). reflexivity.
Qed.

Lemma append_cons (c : ascii) (s t : string) :
  String c s +:+ t = String c (s +:+ t).
Proof. reflexivity. Qed.

Lemma append_assoc (s t u : string) : (s +:+ t) +:+ u = s +:+ t +:+ u.
Proof.
  induction s as [|c s IH]; [reflexivity|].
  rewrite !append_cons. f_equal. exact IH.
Qed.

Lemma length_append (s t : string) :
  String.length (s +:+ t) = (String.length s + String.length t)%nat.
Proof.
  induction s as [|c s IH]; [reflexivity|].
  rewrite append_cons. simpl. now rewrite IH.
Qed.

Lemma append_inj_l (s a b : string) : s +:+ a = s +:+ b -> a = b.
Proof.
  induction s as [|c s IH]; intros H; [exact H|].
  rewrite !append_cons in H. injection H as H. exact (IH H).
Qed.

Lemma substring_all (s : string) :
  String.substring 0 (String.length s) s = s.
Proof. induction s as [|c s IH]; simpl; [reflexivity | now rewrite IH]. Qed.

Lemma substring_head (pre rest : string) :
  String.substring 0 (String.length pre) (pre +:+ rest) = pre.
Proof.
  induction pre as [|c pre IH].
  - destruct rest; reflexivity.
  - rewrite append_cons. simpl. now rewrite IH.
Qed.

Lemma substring_tail (pre rest : string) (n : nat) :
  String.substring (String.length pre) n (pre +:+ rest) =
  String.substring 0 n rest.
Proof.
  induction pre as [|c pre IH]; [reflexivity|].
  rewrite append_cons. simpl. exact IH.
Qed.

(** [Cut] splits at the first [@]: what comes before it has none. *)
Lemma Cut_at_first (pre rest : string) :
  strings.ContainsByte pre "@" = false ->
  strings.Cut (pre +:+ "@" +:+ rest) "@" = (pre, rest, true).
Proof.
  intros Hpre. unfold strings.Cut, strings.Index, strings.slice.
  rewrite (index_at_first pre rest Hpre).
  rewrite Nat.sub_0_r, substring_head.
  change (String.length "@") with 1%nat.
  replace (String.length pre + 1)%nat with (String.length (pre +:+ "@")).
  2:{ rewrite length_append. reflexivity. }
  replace (pre +:+ "@" +:+ rest) with ((pre +:+ "@") +:+ rest).
  2:{ apply append_assoc. }
  rewrite substring_tail, length_append.
  replace (String.length (pre +:+ "@") + String.length rest
           - String.length (pre +:+ "@"))%nat with (String.length rest) by lia.
  now rewrite substring_all.
Qed.

Lemma Cut_no_at (s : string) :
  strings.ContainsByte s "@" = false ->
  strings.Cut s "@" = (s, EmptyString, false).
Proof.
  intros Hs. unfold strings.Cut, strings.Index.
  now rewrite (index_no_at s Hs).
Qed.

(** ** What a run of each handler looks like *)

Section Runs.

Context {B : Type} (client : ssoready.Client B).

(** [handleSAMLRedirect], by the answer of the service. *)
Lemma handleSAMLRedirect_run (r : http.Request) (b b' : B)
    before domain found res err :
  strings.Cut (param r "email") "@" = (before, domain, found) ->
  ssoready.GetSAMLRedirectURL client (orgRequest domain) b = (res, err, b') ->
  handleSAMLRedirect client r b =
    match err, res with
    | Some e, _ =>
        http.MkRun (http.Panicked (http.PanicError e)) b'
          [http.EvGetSAMLRedirectURL (orgRequest domain)]
    | None, Some {| ssoready.RedirectURL := Some u |} =>
        http.MkRun (http.Returned tt) b'
          [http.EvGetSAMLRedirectURL (orgRequest domain);
           http.EvRedirect u http.StatusFound]
    | None, _ =>
        http.MkRun (http.Panicked http.NilPointerDereference) b'
          [http.EvGetSAMLRedirectURL (orgRequest domain)]
    end.
Proof.
  intros HCut HGet. unfold handleSAMLRedirect. rewrite HCut.
  unfold http.bind, http.call. rewrite HGet.
  destruct err as [e|]; [reflexivity|].
  destruct res as [[[u|]]|]; reflexivity.
Qed.

(** [handleSSOReadyCallback], by the answer of the service. *)
Lemma handleSSOReadyCallback_run (r : http.Request) (b b' : B) res err :
  ssoready.RedeemSAMLAccessCode client
    (codeRequest (param r "saml_access_code")) b = (res, err, b') ->
  handleSSOReadyCallback client r b =
    match err, res with
    | Some e, _ =>
        http.MkRun (http.Panicked (http.PanicError e)) b'
          [http.EvRedeemSAMLAccessCode (codeRequest (param r "saml_access_code"))]
    | None, Some {| ssoready.Email := Some email |} =>
        http.MkRun (http.Returned tt) b'
          [http.EvRedeemSAMLAccessCode (codeRequest (param r "saml_access_code"));
           http.EvSetCookie (sessionCookie email);
           http.EvRedirect "/" http.StatusFound]
    | None, _ =>
        http.MkRun (http.Panicked http.NilPointerDereference) b'
          [http.EvRedeemSAMLAccessCode (codeRequest (param r "saml_access_code"))]
    end.
Proof.
  intros HRedeem. unfold handleSSOReadyCallback.
  unfold http.bind, http.call. rewrite HRedeem.
  destruct err as [e|]; [reflexivity|].
  destruct res as [[[email|]]|]; reflexivity.
Qed.

(** Whatever the service answers, [handleSSOReadyCallback] called it
    once, with the code of the request. *)
Lemma handleSSOReadyCallback_calls (r : http.Request) (b : B) :
  http.service_calls (http.trace (handleSSOReadyCallback client r b)) =
  [http.EvRedeemSAMLAccessCode (codeRequest (param r "saml_access_code"))].
Proof.
  destruct (ssoready.RedeemSAMLAccessCode client
              (codeRequest (param r "saml_access_code")) b)
    as [[res err] b'] eqn:HRedeem.
  rewrite (handleSSOReadyCallback_run r b b' res err HRedeem).
  destruct err as [e|]; [reflexivity|].
  destruct res as [[[email|]]|]; reflexivity.
Qed.

(** Likewise for [handleSAMLRedirect] and the organization it cut from
    the email. *)
Lemma handleSAMLRedirect_calls (r : http.Request) (b : B)
    before domain found :
  strings.Cut (param r "email") "@" = (before, domain, found) ->
  http.service_calls (http.trace (handleSAMLRedirect client r b)) =
  [http.EvGetSAMLRedirectURL (orgRequest domain)].
Proof.
  intros HCut.
  destruct (ssoready.GetSAMLRedirectURL client (orgRequest domain) b)
    as [[res err] b'] eqn:HGet.
  rewrite (handleSAMLRedirect_run r b b' before domain found res err HCut HGet).
  destruct err as [e|]; [reflexivity|].
  destruct res as [[[u|]]|]; reflexivity.
Qed.

End Runs.

(** [handleLogout] neither reads the request nor calls the service. *)
Lemma handleLogout_run {B : Type} (r : http.Request) (b : B) :
  handleLogout r b =
  http.MkRun (http.Returned tt) b
    [http.EvSetCookie expiredCookie; http.EvRedirect "/" http.StatusFound].
Proof. reflexivity. Qed.

(** ** The claims *)







(** C3. A request to [GET /ssoready-callback] for which
    [RedeemSAMLAccessCode] returns an error: the handler fails with that
    error (it panics with it), writes no response at all, so no cookie
    [email] and no redirect to [/], and the session of the browser is what
    it was. *)
Theorem callback_error_sets_no_session :
  forall (B : Type) (client : ssoready.Client B) (r : http.Request) (b b' : B)
         (res : option ssoready.RedeemSAMLAccessCodeResponse)
         (err : ssoready.error) (j : browser.Jar),
    ssoready.RedeemSAMLAccessCode client
      (codeRequest (param r "saml_access_code")) b = (res, Some err, b') ->
    let run := handleSSOReadyCallback client r b in
    http.outcome run = http.Panicked (http.PanicError err) /\
    http.responses (http.trace run) = [] /\
    browser.after j run = j.
Proof.
  intros B client r b b' res err j HRedeem run. subst run.
  rewrite (handleSSOReadyCallback_run client r b b' _ _ HRedeem).
  repeat split.
Qed.

Lemma callback_error_sets_no_session_witness :
  let r := get "/ssoready-callback" {[ "saml_access_code" := ["abc123"%string] ]} [] in
  let run := handleSSOReadyCallback demoClient r ["abc123"%string] in
  http.outcome run = http.Panicked (http.PanicError "invalid saml access code") /\
  http.responses (http.trace run) = [] /\
  browser.after ∅ run = ∅.
Proof.
  exact (callback_error_sets_no_session (list string) demoClient
           (get "/ssoready-callback" {[ "saml_access_code" := ["abc123"%string] ]} [])
           ["abc123"%string] ["abc123"%string] None "invalid saml access code" ∅
           eq_refl).
Defined.

(** C6. Every run of the [GET /ssoready-callback] handler applies the
    service's [RedeemSAMLAccessCode] exactly once, to the first value of the
    request's [saml_access_code] parameter (the empty code when there is
    none): a client that records its calls has recorded that call and no
    other, the service is in the state one such call leaves it in, and the
    trace shows that call and no other. *)
Theorem callback_redeems_exactly_once :
  forall (B : Type) (client : ssoready.Client B) (r : http.Request) (b : B)
         (code : string),
    ((exists rest : list string,
         url.Query (http.URL r) !! "saml_access_code" = Some (code :: rest)) \/
     (code = EmptyString /\
      (url.Query (http.URL r) !! "saml_access_code" = None \/
       url.Query (http.URL r) !! "saml_access_code" = Some []))) ->
    let req := {| ssoready.SAMLAccessCode := Some code |} in
    http.service (handleSSOReadyCallback (recording client) r (b, [])) =
      (snd (ssoready.RedeemSAMLAccessCode client req b),
       [CalledRedeemSAMLAccessCode req]) /\
    http.service (handleSSOReadyCallback client r b) =
      snd (ssoready.RedeemSAMLAccessCode client req b) /\
    http.service_calls (http.trace (handleSSOReadyCallback client r b)) =
      [http.EvRedeemSAMLAccessCode req].
Proof.
  intros B client r b code Hcode req. subst req.
  assert (param r "saml_access_code" = code) as Hparam.
  { unfold url.Get.
    destruct Hcode as [[rest ->]|[-> [->| ->]]]; reflexivity. }
  destruct (ssoready.RedeemSAMLAccessCode client (codeRequest code) b)
    as [[res err] b'] eqn:HRedeem.
  assert (ssoready.RedeemSAMLAccessCode (recording client)
            (codeRequest (param r "saml_access_code")) (b, []) =
          (res, err, (b', [CalledRedeemSAMLAccessCode (codeRequest code)])))
    as HRecorded.
  { rewrite Hparam. cbn [recording ssoready.RedeemSAMLAccessCode fst snd].
    rewrite HRedeem. reflexivity. }
  rewrite <- Hparam in HRedeem.
  rewrite (handleSSOReadyCallback_run (recording client) r _ _ _ _ HRecorded).
  rewrite (handleSSOReadyCallback_run client r b b' _ _ HRedeem).
  rewrite Hparam. cbn [snd].
  destruct err as [e|]; [repeat split|].
  destruct res as [[[email|]]|]; repeat split.
Qed.

Lemma callback_redeems_exactly_once_witness :
  let r := get "/ssoready-callback" {[ "saml_access_code" := ["abc123"%string] ]} [] in
  let req := {| ssoready.SAMLAccessCode := Some "abc123"%string |} in
  http.service (handleSSOReadyCallback (recording demoClient) r ([], [])) =
    (["abc123"%string], [CalledRedeemSAMLAccessCode req]) /\
  http.service (handleSSOReadyCallback demoClient r []) = ["abc123"%string] /\
  http.service_calls (http.trace (handleSSOReadyCallback demoClient r [])) =
    [http.EvRedeemSAMLAccessCode req].
Proof.
  intros r req.
  exact (callback_redeems_exactly_once (list string) demoClient r [] "abc123"
           (or_introl (ex_intro _ [] eq_refl))).
Defined.

(** ** The browser and the [email] cookie *)

(** A cookie that is read has the name it was sent under. *)
Lemma readCookie_name (name raw : string) (c : http.Cookie) :
  http.readCookie name raw = Some c -> http.Name c = name.
Proof.
  unfold http.readCookie. destruct (http.isCookieNameValid name); [|discriminate].
  destruct (http.parseCookieValue raw); [|discriminate].
  intros Hc. injection Hc as <-. reflexivity.
Qed.

Lemma find_cookie_absent (l : list (string * string)) (k : string) :
  k ∉ l.*1 ->
  List.find (fun c => String.eqb (http.Name c) k) (omap browser.cookieOf l) = None.
Proof.
  induction l as [|[k' v'] l IH]; intros Hk; [reflexivity|].
  cbn [fmap list_fmap fst] in Hk.
  apply not_elem_of_cons in Hk as [Hne Hk].
  cbn [omap list_omap]. unfold browser.cookieOf at 1. cbn [fst snd].
  destruct (http.readCookie k' v') as [c|] eqn:Hc; [|exact (IH Hk)].
  cbn [List.find]. rewrite (readCookie_name _ _ _ Hc).
  destruct (String.eqb_spec k' k) as [Heq|_]; [congruence|]. exact (IH Hk).
Qed.

(** Among the cookies read from a list of pairs with distinct names, the
    one of a name is what can be read of the pair of that name. *)
Lemma find_cookie (l : list (string * string)) (k : string) :
  NoDup (l.*1) ->
  List.find (fun c => String.eqb (http.Name c) k) (omap browser.cookieOf l) =
  (list_to_map l : gmap string string) !! k ≫= http.readCookie k.
Proof.
  induction l as [|[k' v'] l IH]; intros Hnodup; [reflexivity|].
  cbn [fmap list_fmap fst] in Hnodup.
  apply NoDup_cons in Hnodup as [Hk' Hnodup].
  cbn [omap list_omap list_to_map foldr uncurry]. unfold browser.cookieOf at 1.
  cbn [fst snd].
  destruct (String.eqb_spec k' k) as [->|Hne].
  - rewrite lookup_insert_eq. cbn [mbind option_bind].
    destruct (http.readCookie k v') as [c|] eqn:Hc.
    + cbn [List.find]. rewrite (readCookie_name _ _ _ Hc).
      now rewrite String.eqb_refl.
    + exact (find_cookie_absent l k Hk').
  - rewrite lookup_insert_ne by exact Hne.
    destruct (http.readCookie k' v') as [c|] eqn:Hc; [|exact (IH Hnodup)].
    cbn [List.find]. rewrite (readCookie_name _ _ _ Hc).
    destruct (String.eqb_spec k' k) as [Heq|_]; [congruence|]. exact (IH Hnodup).
Qed.

(** The handler reads of the session of the jar what [net/http] can
    read of it. *)
Lemma request_cookie_of_jar (j : browser.Jar) (u : url.URL) :
  http.Request_Cookie (browser.request j u) "email" =
  browser.session j ≫= http.readCookie "email".
Proof.
  unfold http.Request_Cookie, browser.request, browser.cookies, browser.session.
  cbn [http.Cookies]. change (String.eqb "email" EmptyString) with false.
  cbv iota. rewrite find_cookie by apply NoDup_fst_map_to_list.
  now rewrite list_to_map_to_list.
Qed.

Lemma request_email_value (j : browser.Jar) (u : url.URL) :
  http.Value <$> http.Request_Cookie (browser.request j u) "email" =
  browser.session j ≫= http.parseCookieValue.
Proof.
  rewrite request_cookie_of_jar. destruct (browser.session j) as [raw|];
    [|reflexivity].
  cbn [mbind option_bind]. unfold http.readCookie.
  change (http.isCookieNameValid "email") with true. cbv iota.
  destruct (http.parseCookieValue raw); reflexivity.
Qed.

(** ** The page of [GET /] *)

Lemma render_indexTemplate (E : template.Engine) (email : string) :
  template.render E indexTemplate {[ "Email" := email ]} =
  indexPage E (template.or email "logged-out user").
Proof.
  unfold template.render, indexTemplate, indexPage.
  cbn [List.map template.execNode template.evalArg String.concat].
  rewrite lookup_singleton_eq. reflexivity.
Qed.

(** [handleIndex] reads nothing of the request but its [email] cookie. *)
Lemma handleIndex_run {B : Type} (E : template.Engine) (r : http.Request) (b : B) :
  handleIndex E r b =
  http.MkRun (http.Returned tt) b
    [http.EvWrite
       (indexPage E
          (template.or
             (default EmptyString (http.Value <$> http.Request_Cookie r "email"))
             "logged-out user"))].
Proof.
  unfold handleIndex, template.Execute, http.Write, http.bind.
  cbn [http.outcome http.service http.trace].
  rewrite render_indexTemplate.
  destruct (http.Request_Cookie r "email") as [c|]; reflexivity.
Qed.

(** The browser drops its [email] cookie when the answer to a logout
    arrives. *)
Lemma logout_clears_jar {B : Type} (r : http.Request) (b : B) (j : browser.Jar) :
  browser.after j (handleLogout r b) = delete "email" j.
Proof. reflexivity. Qed.

(** C7. [GET /logout], whatever the request and the session it comes
    with: the handler returns (no error), sets the cookie [email] with a
    negative [MaxAge] and redirects with status 302 to [/]; the browser is
    then without session; a second logout does the same and leaves the
    browser as the first one did. *)
Theorem logout_idempotent :
  forall (B : Type) (r1 r2 : http.Request) (b : B) (j : browser.Jar),
    let run1 := handleLogout r1 b in
    let j1 := browser.after j run1 in
    let run2 := handleLogout r2 (http.service run1) in
    let j2 := browser.after j1 run2 in
    (http.outcome run1 = http.Returned tt /\
     http.trace run1 =
       [http.EvSetCookie expiredCookie; http.EvRedirect "/" 302]) /\
    (http.outcome run2 = http.Returned tt /\
     http.trace run2 =
       [http.EvSetCookie expiredCookie; http.EvRedirect "/" 302]) /\
    browser.session j1 = None /\
    browser.session j2 = None /\
    j2 = j1.
Proof.
  intros B r1 r2 b j run1 j1 run2 j2.
  subst j2 run2 j1 run1. rewrite !logout_clears_jar, !handleLogout_run.
  unfold browser.session. rewrite delete_delete_eq.
  repeat split; apply lookup_delete_eq.
Qed.

(** After a logout, the page of [GET /] is the one for a logged-out
    user. *)
Lemma index_after_logout {B : Type} (E : template.Engine)
    (r : http.Request) (b : B) (j : browser.Jar) (u : url.URL) :
  http.trace
    (handleIndex E (browser.request (browser.after j (handleLogout r b)) u) b) =
  [http.EvWrite (indexPage E "logged-out user")].
Proof.
  rewrite handleIndex_run, request_cookie_of_jar, logout_clears_jar.
  unfold browser.session. rewrite lookup_delete_eq. reflexivity.
Qed.

(** C10, amended. The answer to [GET /] is a function of the value of the
    [email] cookie alone: two requests with the same value get the same
    run (same page, same outcome, service untouched).  The page greets that
    value, escaped for HTML, when it is not empty, and greets
    [logged-out user] when there is no [email] cookie or its value is
    empty. *)
Theorem index_page_function_of_email_cookie :
  forall (B : Type) (E : template.Engine) (r1 r2 : http.Request) (b : B),
    http.Value <$> http.Request_Cookie r1 "email" =
    http.Value <$> http.Request_Cookie r2 "email" ->
    handleIndex E r1 b = handleIndex E r2 b /\
    (forall v : string,
        http.Value <$> http.Request_Cookie r1 "email" = Some v ->
        v <> EmptyString ->
        handleIndex E r1 b =
          http.MkRun (http.Returned tt) b [http.EvWrite (indexPage E v)]) /\
    (http.Value <$> http.Request_Cookie r1 "email" = None \/
     http.Value <$> http.Request_Cookie r1 "email" = Some EmptyString ->
     handleIndex E r1 b =
       http.MkRun (http.Returned tt) b
         [http.EvWrite (indexPage E "logged-out user")]).
Proof.
  intros B E r1 r2 b Hsame. rewrite !handleIndex_run. split; [|split].
  - now rewrite Hsame.
  - intros v Hv Hne. rewrite Hv.
    change (default EmptyString (Some v)) with v. unfold template.or.
    destruct (String.eqb_spec v EmptyString) as [Heq|_]; [contradiction|].
    reflexivity.
  - intros [H|H]; rewrite H; reflexivity.
Qed.

Lemma index_page_function_of_email_cookie_witness :
  let r1 := get "/" ∅ [sessionCookie "john.doe@example.com"] in
  let r2 := get "/?utm=1" {[ "utm" := ["1"%string] ]}
              [sessionCookie "john.doe@example.com"; sessionCookie "eve@example.org"] in
  let r3 := get "/" ∅ [] in
  handleIndex plainEngine r1 tt = handleIndex plainEngine r2 tt /\
  handleIndex plainEngine r1 tt =
    http.MkRun (http.Returned tt) tt
      [http.EvWrite (indexPage plainEngine "john.doe@example.com")] /\
  handleIndex plainEngine r3 tt =
    http.MkRun (http.Returned tt) tt
      [http.EvWrite (indexPage plainEngine "logged-out user")].
Proof.
  intros r1 r2 r3.
  pose proof (index_page_function_of_email_cookie unit plainEngine r1 r2 tt eq_refl)
    as [Hsame [Hvalue _]].
  pose proof (index_page_function_of_email_cookie unit plainEngine r3 r3 tt eq_refl)
    as [_ [_ Hnone]].
  split; [exact Hsame|]. split.
  - apply (Hvalue "john.doe@example.com" eq_refl). discriminate.
  - apply Hnone. left. reflexivity.
Defined.

(** C10, as stated, at the empty value: a request whose [email] cookie is
    empty gets the page of a logged-out user, not a page that shows the
    value of its cookie. *)
Lemma index_empty_email_cookie_counterexample :
  let r := get "/" ∅ [sessionCookie EmptyString] in
  http.Value <$> http.Request_Cookie r "email" = Some EmptyString /\
  http.trace (handleIndex plainEngine r tt) =
    [http.EvWrite (indexPage plainEngine "logged-out user")] /\
  http.trace (handleIndex plainEngine r tt) <>
    [http.EvWrite (indexPage plainEngine EmptyString)].
Proof.
  intros r. split; [reflexivity|]. rewrite handleIndex_run. cbn [http.trace].
  change (http.Value <$> http.Request_Cookie r "email") with (Some EmptyString).
  change (template.or (default EmptyString (Some EmptyString)) "logged-out user")
    with "logged-out user"%string.
  split; [reflexivity|]. intros H.
  apply (f_equal (fun t => match t with
                           | [http.EvWrite body] => String.length body
                           | _ => 0%nat
                           end)) in H.
  cbv beta iota in H. unfold indexPage in H. rewrite !length_append in H.
  change (String.length (template.htmlEscaper plainEngine "logged-out user"))
    with 15%nat in H.
  change (String.length (template.htmlEscaper plainEngine EmptyString))
    with 0%nat in H.
  lia.
Qed.

(** C4, amended. A request to [GET /saml-redirect] whose [email] has no
    [@], or nothing after its first [@], is not turned down by the handler:
    the handler asks the service once, for the organization with the empty
    name.  When that call returns an error, the handler fails with that
    error and writes no response, so no redirect. *)
Theorem saml_redirect_without_domain_asks_broker :
  forall (B : Type) (client : ssoready.Client B) (r : http.Request) (b : B),
    (strings.ContainsByte (param r "email") "@" = false \/
     exists localPart : string,
       strings.ContainsByte localPart "@" = false /\
       param r "email" = localPart +:+ "@") ->
    let run := handleSAMLRedirect client r b in
    http.service_calls (http.trace run) =
      [http.EvGetSAMLRedirectURL (orgRequest EmptyString)] /\
    (forall res err b',
        ssoready.GetSAMLRedirectURL client (orgRequest EmptyString) b =
          (res, Some err, b') ->
        http.outcome run = http.Panicked (http.PanicError err) /\
        http.responses (http.trace run) = []).
Proof.
  intros B client r b Hemail run. subst run.
  assert (exists before found,
             strings.Cut (param r "email") "@" = (before, EmptyString, found))
    as (before & found & HCut).
  { destruct Hemail as [Hno|(localPart & Hno & ->)].
    - exists (param r "email"), false. now apply Cut_no_at.
    - exists localPart, true. exact (Cut_at_first localPart EmptyString Hno). }
  split.
  - exact (handleSAMLRedirect_calls client r b _ _ _ HCut).
  - intros res err b' HGet.
    rewrite (handleSAMLRedirect_run client r b b' _ _ _ _ _ HCut HGet).
    split; reflexivity.
Qed.

Lemma saml_redirect_without_domain_asks_broker_witness :
  let r := get "/saml-redirect" {[ "email" := ["john.doe"%string] ]} [] in
  let run := handleSAMLRedirect demoClient r [] in
  http.service_calls (http.trace run) =
    [http.EvGetSAMLRedirectURL (orgRequest EmptyString)] /\
  http.outcome run = http.Panicked (http.PanicError "organization not found") /\
  http.responses (http.trace run) = [].
Proof.
  intros r run.
  destruct (saml_redirect_without_domain_asks_broker (list string) demoClient r []
              (or_introl eq_refl)) as [Hcalls Herr].
  split; [exact Hcalls|].
  exact (Herr None "organization not found"%string [] eq_refl).
Defined.

(** C4, as stated, at the empty email and a service that knows an
    organization of the empty name: the service is asked, and the redirect
    is issued. *)
Lemma saml_redirect_empty_email_counterexample :
  let r := get "/saml-redirect" {[ "email" := [EmptyString] ]} [] in
  let run := handleSAMLRedirect openClient r tt in
  param r "email" = EmptyString /\
  http.trace run =
    [http.EvGetSAMLRedirectURL (orgRequest EmptyString);
     http.EvRedirect "https://idp.example/login" 302] /\
  ~ (http.service_calls (http.trace run) = [] /\
     http.responses (http.trace run) = []).
Proof.
  intros r run. split; [reflexivity|]. split; [reflexivity|].
  intros [Hcalls _]. discriminate Hcalls.
Qed.

(** C5, amended. A request to [GET /ssoready-callback] whose
    [saml_access_code] is absent or empty is not turned down by the
    handler: the handler asks the service once to redeem the empty code.
    When that call returns an error, the handler fails with that error,
    writes no response (no cookie, no redirect to [/]), and the browser
    keeps the session it had. *)
Theorem callback_without_code_asks_broker :
  forall (B : Type) (client : ssoready.Client B) (r : http.Request) (b : B),
    (url.Query (http.URL r) !! "saml_access_code" = None \/
     url.Query (http.URL r) !! "saml_access_code" = Some [] \/
     exists rest : list string,
       url.Query (http.URL r) !! "saml_access_code" = Some (EmptyString :: rest)) ->
    let run := handleSSOReadyCallback client r b in
    http.service_calls (http.trace run) =
      [http.EvRedeemSAMLAccessCode (codeRequest EmptyString)] /\
    (forall res err b' (j : browser.Jar),
        ssoready.RedeemSAMLAccessCode client (codeRequest EmptyString) b =
          (res, Some err, b') ->
        http.outcome run = http.Panicked (http.PanicError err) /\
        http.responses (http.trace run) = [] /\
        browser.after j run = j).
Proof.
  intros B client r b Hcode run. subst run.
  assert (param r "saml_access_code" = EmptyString) as Hparam.
  { unfold url.Get. destruct Hcode as [->|[->|[rest ->]]]; reflexivity. }
  split.
  - rewrite handleSSOReadyCallback_calls. now rewrite Hparam.
  - intros res err b' j HRedeem. rewrite <- Hparam in HRedeem.
    rewrite (handleSSOReadyCallback_run client r b b' _ _ HRedeem).
    repeat split.
Qed.

Lemma callback_without_code_asks_broker_witness :
  let r := get "/ssoready-callback" ∅ [] in
  let run := handleSSOReadyCallback demoClient r [] in
  http.service_calls (http.trace run) =
    [http.EvRedeemSAMLAccessCode (codeRequest EmptyString)] /\
  http.outcome run = http.Panicked (http.PanicError "invalid saml access code") /\
  http.responses (http.trace run) = [] /\
  browser.after ∅ run = ∅.
Proof.
  intros r run.
  destruct (callback_without_code_asks_broker (list string) demoClient r []
              (or_introl eq_refl)) as [Hcalls Herr].
  split; [exact Hcalls|].
  exact (Herr None "invalid saml access code"%string [] ∅ eq_refl).
Defined.

(** C5, as stated, at a request without [saml_access_code] and a service
    that redeems the empty code: the cookie is set and the redirect to [/]
    is issued. *)
Lemma callback_missing_code_counterexample :
  let r := get "/ssoready-callback" ∅ [] in
  let run := handleSSOReadyCallback openClient r tt in
  url.Query (http.URL r) !! "saml_access_code" = None /\
  http.trace run =
    [http.EvRedeemSAMLAccessCode (codeRequest EmptyString);
     http.EvSetCookie (sessionCookie "john.doe@example.com");
     http.EvRedirect "/" 302] /\
  ~ (exists v, http.outcome run = http.Panicked v) /\
  browser.session (browser.after ∅ run) = Some "john.doe@example.com"%string.
Proof.
  intros r run. split; [reflexivity|]. split; [reflexivity|]. split.
  - intros [v Hv]. discriminate Hv.
  - reflexivity.
Qed.






(** * More of the handlers *)

(** ** Every run of the two handlers that call the service *)


(** The runs of [handleSAMLRedirect], all of them. *)
Lemma handleSAMLRedirect_cases {B : Type} (client : ssoready.Client B)
    (r : http.Request) (b : B) :
  exists (org : string) (b' : B),
    (exists u, handleSAMLRedirect client r b =
       http.MkRun (http.Returned tt) b'
         [http.EvGetSAMLRedirectURL (orgRequest org);
          http.EvRedirect u http.StatusFound]) \/
    (exists v, handleSAMLRedirect client r b =
       http.MkRun (http.Panicked v) b'
         [http.EvGetSAMLRedirectURL (orgRequest org)]).
Proof.
  destruct (strings.Cut (param r "email") "@") as [[before domain] found] eqn:HCut.
  destruct (ssoready.GetSAMLRedirectURL client (orgRequest domain) b)
    as [[res err] b'] eqn:HGet.
  exists domain, b'.
  rewrite (handleSAMLRedirect_run client r b b' _ _ _ _ _ HCut HGet).
  destruct err as [e|]; [right; eexists; reflexivity|].
  destruct res as [[[u|]]|];
    [left; eexists; reflexivity | right; eexists; reflexivity ..].
Qed.

(** The runs of [handleSSOReadyCallback], all of them. *)
Lemma handleSSOReadyCallback_cases {B : Type} (client : ssoready.Client B)
    (r : http.Request) (b : B) :
  exists b' : B,
    (exists e, handleSSOReadyCallback client r b =
       http.MkRun (http.Returned tt) b'
         [http.EvRedeemSAMLAccessCode (codeRequest (param r "saml_access_code"));
          http.EvSetCookie (sessionCookie e);
          http.EvRedirect "/" http.StatusFound]) \/
    (exists v, handleSSOReadyCallback client r b =
       http.MkRun (http.Panicked v) b'
         [http.EvRedeemSAMLAccessCode (codeRequest (param r "saml_access_code"))]).
Proof.
  destruct (ssoready.RedeemSAMLAccessCode client
              (codeRequest (param r "saml_access_code")) b)
    as [[res err] b'] eqn:HRedeem.
  exists b'.
  rewrite (handleSSOReadyCallback_run client r b b' _ _ HRedeem).
  destruct err as [e|]; [right; eexists; reflexivity|].
  destruct res as [[[email|]]|];
    [left; eexists; reflexivity | right; eexists; reflexivity ..].
Qed.

(** X1. [GET /saml-redirect], whatever the email: when
    [GetSAMLRedirectURL] returns an error, the handler panics with that
    error, has written nothing (no redirect), and the browser keeps the
    session it had. *)
Theorem saml_redirect_broker_error_panics :
  forall (B : Type) (client : ssoready.Client B) (r : http.Request) (b b' : B)
         (before domain : string) (found : bool)
         (res : option ssoready.GetSAMLRedirectURLResponse)
         (err : ssoready.error) (j : browser.Jar),
    strings.Cut (param r "email") "@" = (before, domain, found) ->
    ssoready.GetSAMLRedirectURL client (orgRequest domain) b =
      (res, Some err, b') ->
    let run := handleSAMLRedirect client r b in
    http.outcome run = http.Panicked (http.PanicError err) /\
    http.responses (http.trace run) = [] /\
    browser.after j run = j.
Proof.
  intros B client r b b' before domain found res err j HCut HGet run. subst run.
  rewrite (handleSAMLRedirect_run client r b b' _ _ _ _ _ HCut HGet).
  repeat split.
Qed.

Lemma saml_redirect_broker_error_panics_witness :
  let r := get "/saml-redirect" {[ "email" := ["jane@example.net"%string] ]} [] in
  let run := handleSAMLRedirect demoClient r [] in
  http.outcome run = http.Panicked (http.PanicError "organization not found") /\
  http.responses (http.trace run) = [] /\
  browser.after {[ "email" := "john.doe@example.com"%string ]} run =
    {[ "email" := "john.doe@example.com"%string ]}.
Proof.
  exact (saml_redirect_broker_error_panics (list string) demoClient
           (get "/saml-redirect" {[ "email" := ["jane@example.net"%string] ]} [])
           [] [] "jane" "example.net" true None "organization not found"
           {[ "email" := "john.doe@example.com"%string ]} eq_refl eq_refl).
Defined.

(** X2. Every run of [GET /saml-redirect] is all or nothing: it returns
    after one redirect with status 302 and nothing else written, or it
    panics with nothing written.  It sets no cookie either way, so the
    browser keeps the session it had. *)
Theorem saml_redirect_all_or_nothing :
  forall (B : Type) (client : ssoready.Client B) (r : http.Request) (b : B),
    let run := handleSAMLRedirect client r b in
    ((http.outcome run = http.Returned tt /\
      exists u, http.responses (http.trace run) = [http.EvRedirect u 302]) \/
     (exists v, http.outcome run = http.Panicked v /\
                http.responses (http.trace run) = [])) /\
    forall j : browser.Jar, browser.after j run = j.
Proof.
  intros B client r b run. subst run.
  destruct (handleSAMLRedirect_cases client r b) as (org & b' & [[u ->]|[v ->]]).
  - split; [left; split; [reflexivity | exists u; reflexivity] | reflexivity].
  - split; [right; exists v; split; reflexivity | reflexivity].
Qed.

(** X3. [GET /saml-redirect] when the service reports no error but gives
    no response, or a response without [RedirectURL]: the handler panics on
    the nil pointer and has written nothing. *)
Theorem saml_redirect_nil_response_panics :
  forall (B : Type) (client : ssoready.Client B) (r : http.Request) (b b' : B)
         (before domain : string) (found : bool)
         (res : option ssoready.GetSAMLRedirectURLResponse),
    strings.Cut (param r "email") "@" = (before, domain, found) ->
    ssoready.GetSAMLRedirectURL client (orgRequest domain) b = (res, None, b') ->
    res = None \/ res = Some {| ssoready.RedirectURL := None |} ->
    let run := handleSAMLRedirect client r b in
    http.outcome run = http.Panicked http.NilPointerDereference /\
    http.responses (http.trace run) = [].
Proof.
  intros B client r b b' before domain found res HCut HGet Hnil run. subst run.
  rewrite (handleSAMLRedirect_run client r b b' _ _ _ _ _ HCut HGet).
  destruct Hnil as [->| ->]; split; reflexivity.
Qed.

Lemma saml_redirect_nil_response_panics_witness :
  let r := get "/saml-redirect" {[ "email" := ["john.doe@example.com"%string] ]} [] in
  let run := handleSAMLRedirect (answerClient None None) r tt in
  http.outcome run = http.Panicked http.NilPointerDereference /\
  http.responses (http.trace run) = [].
Proof.
  exact (saml_redirect_nil_response_panics unit (answerClient None None)
           (get "/saml-redirect" {[ "email" := ["john.doe@example.com"%string] ]} [])
           tt tt "john.doe" "example.com" true
           (Some {| ssoready.RedirectURL := None |})
           eq_refl eq_refl (or_intror eq_refl)).
Defined.

(** X4. [GET /ssoready-callback] when the service reports no error but
    gives no response, or a response without [Email]: the handler panics on
    the nil pointer, has set no cookie and issued no redirect, and the
    browser keeps the session it had. *)
Theorem callback_nil_response_panics :
  forall (B : Type) (client : ssoready.Client B) (r : http.Request) (b b' : B)
         (res : option ssoready.RedeemSAMLAccessCodeResponse) (j : browser.Jar),
    ssoready.RedeemSAMLAccessCode client
      (codeRequest (param r "saml_access_code")) b = (res, None, b') ->
    res = None \/ res = Some {| ssoready.Email := None |} ->
    let run := handleSSOReadyCallback client r b in
    http.outcome run = http.Panicked http.NilPointerDereference /\
    http.responses (http.trace run) = [] /\
    browser.after j run = j.
Proof.
  intros B client r b b' res j HRedeem Hnil run. subst run.
  rewrite (handleSSOReadyCallback_run client r b b' _ _ HRedeem).
  destruct Hnil as [->| ->]; repeat split.
Qed.

Lemma callback_nil_response_panics_witness :
  let r := get "/ssoready-callback" {[ "saml_access_code" := ["abc123"%string] ]} [] in
  let run := handleSSOReadyCallback (answerClient None None) r tt in
  http.outcome run = http.Panicked http.NilPointerDereference /\
  http.responses (http.trace run) = [] /\
  browser.after ∅ run = ∅.
Proof.
  exact (callback_nil_response_panics unit (answerClient None None)
           (get "/ssoready-callback" {[ "saml_access_code" := ["abc123"%string] ]} [])
           tt tt (Some {| ssoready.Email := None |}) ∅
           eq_refl (or_intror eq_refl)).
Defined.

(** X5. Every run of [GET /ssoready-callback] is all or nothing: it
    returns having called [http.SetCookie] for the cookie [email] with some
    identity and then [http.Redirect] with status 302 to [/], and the
    browser carries that identity as [net/http] sanitizes it; or it panics
    with nothing written, and the browser keeps the session it had.  Never
    a cookie without the redirect, never a redirect without the cookie. *)
Theorem callback_all_or_nothing :
  forall (B : Type) (client : ssoready.Client B) (r : http.Request) (b : B),
    let run := handleSSOReadyCallback client r b in
    (exists e,
        http.outcome run = http.Returned tt /\
        http.responses (http.trace run) =
          [http.EvSetCookie (sessionCookie e); http.EvRedirect "/" 302] /\
        forall j : browser.Jar,
          browser.session (browser.after j run) =
          Some (http.sanitizeCookieValue e)) \/
    (exists v,
        http.outcome run = http.Panicked v /\
        http.responses (http.trace run) = [] /\
        forall j : browser.Jar, browser.after j run = j).
Proof.
  intros B client r b run. subst run.
  destruct (handleSSOReadyCallback_cases client r b) as (b' & [[e ->]|[v ->]]).
  - left. exists e. split; [reflexivity|]. split; [reflexivity|]. intros j.
    unfold browser.session. apply lookup_insert_eq.
  - right. exists v. repeat split.
Qed.

(** ** Requests in a row *)

(** The jar after a callback that succeeded. *)
Lemma callback_success_jar {B : Type} (client : ssoready.Client B)
    (r : http.Request) (b b' : B) (e : string) (j : browser.Jar) :
  ssoready.RedeemSAMLAccessCode client
    (codeRequest (param r "saml_access_code")) b =
    (Some {| ssoready.Email := Some e |}, None, b') ->
  browser.after j (handleSSOReadyCallback client r b) =
    <[ "email" := http.sanitizeCookieValue e ]> j /\
  http.service (handleSSOReadyCallback client r b) = b'.
Proof.
  intros HRedeem.
  rewrite (handleSSOReadyCallback_run client r b b' _ _ HRedeem).
  split; reflexivity.
Qed.

(** X6. The same callback twice: if the service redeems the code to [e]
    the first time and returns an error the second time, the second run
    panics with that error and the browser still carries the session of
    the first: [e] as [net/http] sanitized it. *)
Theorem callback_replay_keeps_first_session :
  forall (B : Type) (client : ssoready.Client B) (r : http.Request)
         (b b1 b2 : B) (e : string)
         (res : option ssoready.RedeemSAMLAccessCodeResponse)
         (err : ssoready.error) (j : browser.Jar),
    ssoready.RedeemSAMLAccessCode client
      (codeRequest (param r "saml_access_code")) b =
      (Some {| ssoready.Email := Some e |}, None, b1) ->
    ssoready.RedeemSAMLAccessCode client
      (codeRequest (param r "saml_access_code")) b1 = (res, Some err, b2) ->
    let run1 := handleSSOReadyCallback client r b in
    let j1 := browser.after j run1 in
    let run2 := handleSSOReadyCallback client r (http.service run1) in
    let j2 := browser.after j1 run2 in
    http.outcome run1 = http.Returned tt /\
    http.outcome run2 = http.Panicked (http.PanicError err) /\
    http.responses (http.trace run2) = [] /\
    j2 = j1 /\
    browser.session j2 = Some (http.sanitizeCookieValue e).
Proof.
  intros B client r b b1 b2 e res err j H1 H2 run1 j1 run2 j2.
  subst j2 run2 j1 run1.
  rewrite (handleSSOReadyCallback_run client r b b1 _ _ H1).
  cbn [http.service].
  rewrite (handleSSOReadyCallback_run client r b1 b2 _ _ H2).
  split; [reflexivity|]. split; [reflexivity|]. split; [reflexivity|].
  split; [reflexivity|].
  unfold browser.session. apply lookup_insert_eq.
Qed.

Lemma callback_replay_keeps_first_session_witness :
  let r := get "/ssoready-callback" {[ "saml_access_code" := ["abc123"%string] ]} [] in
  let run1 := handleSSOReadyCallback demoClient r [] in
  let j1 := browser.after ∅ run1 in
  let run2 := handleSSOReadyCallback demoClient r (http.service run1) in
  let j2 := browser.after j1 run2 in
  http.outcome run1 = http.Returned tt /\
  http.outcome run2 = http.Panicked (http.PanicError "invalid saml access code") /\
  http.responses (http.trace run2) = [] /\
  j2 = j1 /\
  browser.session j2 = Some "john.doe@example.com"%string.
Proof.
  exact (callback_replay_keeps_first_session (list string) demoClient
           (get "/ssoready-callback" {[ "saml_access_code" := ["abc123"%string] ]} [])
           [] ["abc123"%string] ["abc123"%string] "john.doe@example.com"
           None "invalid saml access code" ∅ eq_refl eq_refl).
Defined.

(** X7. Login, then the landing page: after a callback the service
    redeemed to the identity [e], the next [GET /] of that browser greets
    what is left of [e] without the bytes [net/http] does not allow in a
    cookie value, when anything is left; so it greets [e] itself when all
    bytes of [e] are allowed.  The session the browser had before does not
    matter. *)
Theorem index_after_login_greets_identity :
  forall (B : Type) (client : ssoready.Client B) (E : template.Engine)
         (r : http.Request) (b b' : B) (e : string)
         (j : browser.Jar) (u : url.URL),
    ssoready.RedeemSAMLAccessCode client
      (codeRequest (param r "saml_access_code")) b =
      (Some {| ssoready.Email := Some e |}, None, b') ->
    http.sanitizeOrWarn http.validCookieValueByte e <> EmptyString ->
    let login := handleSSOReadyCallback client r b in
    let page :=
      handleIndex E (browser.request (browser.after j login) u) (http.service login) in
    page =
      http.MkRun (http.Returned tt) b'
        [http.EvWrite
           (indexPage E (http.sanitizeOrWarn http.validCookieValueByte e))] /\
    (http.allBytes http.validCookieValueByte e = true ->
     page = http.MkRun (http.Returned tt) b' [http.EvWrite (indexPage E e)]).
Proof.
  intros B client E r b b' e j u HRedeem Hne login page. subst page login.
  destruct (callback_success_jar client r b b' e j HRedeem) as [-> ->].
  rewrite handleIndex_run, request_email_value.
  unfold browser.session. rewrite lookup_insert_eq.
  cbn [mbind option_bind]. rewrite parseCookieValue_sanitized.
  cbn [default from_option id]. unfold template.or.
  destruct (String.eqb_spec (http.sanitizeOrWarn http.validCookieValueByte e)
              EmptyString) as [Heq|_]; [contradiction|].
  split; [reflexivity|].
  intros Hvalid. now rewrite (sanitizeOrWarn_valid _ e Hvalid).
Qed.

Lemma index_after_login_greets_identity_witness :
  let r := get "/ssoready-callback" {[ "saml_access_code" := ["abc123"%string] ]} [] in
  let login := handleSSOReadyCallback demoClient r [] in
  handleIndex plainEngine
    (browser.request (browser.after ∅ login) {| url.Path := "/"; url.Query := ∅ |})
    (http.service login) =
  http.MkRun (http.Returned tt) ["abc123"%string]
    [http.EvWrite (indexPage plainEngine "john.doe@example.com")].
Proof.
  intros r login.
  exact (proj2
           (index_after_login_greets_identity (list string) demoClient plainEngine
              r [] ["abc123"%string] "john.doe@example.com" ∅
              {| url.Path := "/"; url.Query := ∅ |} eq_refl ltac:(discriminate))
           eq_refl).
Defined.

(** X8. A callback the service redeems to the empty identity: the
    handler returns as for any login (cookie [email] set, to the empty
    value, then redirect to [/]), yet the next [GET /] of that browser gets
    the page of a logged-out user. *)
Theorem login_with_empty_identity_looks_logged_out :
  forall (B : Type) (client : ssoready.Client B) (E : template.Engine)
         (r : http.Request) (b b' : B) (j : browser.Jar) (u : url.URL),
    ssoready.RedeemSAMLAccessCode client
      (codeRequest (param r "saml_access_code")) b =
      (Some {| ssoready.Email := Some EmptyString |}, None, b') ->
    let login := handleSSOReadyCallback client r b in
    http.outcome login = http.Returned tt /\
    http.responses (http.trace login) =
      [http.EvSetCookie (sessionCookie EmptyString); http.EvRedirect "/" 302] /\
    http.trace
      (handleIndex E (browser.request (browser.after j login) u) (http.service login)) =
    [http.EvWrite (indexPage E "logged-out user")].
Proof.
  intros B client E r b b' j u HRedeem login. subst login.
  destruct (callback_success_jar client r b b' EmptyString j HRedeem) as [-> ->].
  rewrite (handleSSOReadyCallback_run client r b b' _ _ HRedeem).
  split; [reflexivity|]. split; [reflexivity|].
  rewrite handleIndex_run, request_email_value.
  unfold browser.session. rewrite lookup_insert_eq. reflexivity.
Qed.

Lemma login_with_empty_identity_looks_logged_out_witness :
  let r := get "/ssoready-callback" {[ "saml_access_code" := ["abc123"%string] ]} [] in
  let login := handleSSOReadyCallback (answerClient None (Some EmptyString)) r tt in
  http.outcome login = http.Returned tt /\
  http.responses (http.trace login) =
    [http.EvSetCookie (sessionCookie EmptyString); http.EvRedirect "/" 302] /\
  http.trace
    (handleIndex plainEngine
       (browser.request (browser.after ∅ login) {| url.Path := "/"; url.Query := ∅ |})
       (http.service login)) =
  [http.EvWrite (indexPage plainEngine "logged-out user")].
Proof.
  exact (login_with_empty_identity_looks_logged_out unit
           (answerClient None (Some EmptyString)) plainEngine
           (get "/ssoready-callback" {[ "saml_access_code" := ["abc123"%string] ]} [])
           tt tt ∅ {| url.Path := "/"; url.Query := ∅ |} eq_refl).
Defined.

(** X10. The program touches no cookie but [email]: for every handler
    [main] registers, every request and every state of the service, any
    other cookie of the browser is after the answer what it was before. *)
Theorem mux_touches_only_email_cookie :
  forall (B : Type) (client : ssoready.Client B) (E : template.Engine)
         (pattern : string) (h : http.Request -> http.M B unit)
         (r : http.Request) (b : B) (j : browser.Jar) (name : string),
    In (pattern, h) (mux client E) ->
    name <> "email"%string ->
    browser.after j (h r b) !! name = j !! name.
Proof.
  intros B client E pattern h r b j name Hin Hname.
  cbn [mux In] in Hin.
  destruct Hin as [Heq|[Heq|[Heq|[Heq|[]]]]];
    injection Heq as _ <-.
  - rewrite handleIndex_run. reflexivity.
  - rewrite logout_clears_jar. apply lookup_delete_ne. congruence.
  - destruct (handleSAMLRedirect_cases client r b) as (org & b' & [[u ->]|[v ->]]);
      reflexivity.
  - destruct (handleSSOReadyCallback_cases client r b) as (b' & [[e ->]|[v ->]]).
    + change (browser.after j _)
        with (<[ "email"%string := http.sanitizeCookieValue e ]> j).
      apply lookup_insert_ne. congruence.
    + reflexivity.
Qed.

Lemma mux_touches_only_email_cookie_witness :
  let j : browser.Jar :=
    {[ "email" := "john.doe@example.com"%string; "theme" := "dark"%string ]} in
  browser.after j (handleLogout (B:=unit) (get "/logout" ∅ []) tt) !! "theme"%string =
  j !! "theme"%string.
Proof.
  intros j.
  apply (mux_touches_only_email_cookie unit openClient plainEngine
           "GET /logout" handleLogout (get "/logout" ∅ []) tt j "theme").
  - right. left. reflexivity.
  - discriminate.
Defined.


(** X13. The cookie is taken at its word: a browser whose jar holds for
    [email], however it got there, a value it can send and [net/http] reads
    as the non-empty [v] (double quotes around it stripped, no invalid
    byte) is greeted under the name [v] by [GET /], and the service is
    neither asked nor changed.  A value [net/http] cannot read counts as no
    cookie: the page is the one of a logged-out user. *)
Theorem index_trusts_email_cookie :
  forall (B : Type) (E : template.Engine) (j : browser.Jar) (u : url.URL)
         (b : B) (raw : string),
    j !! "email"%string = Some raw ->
    http.sendable raw = true ->
    let run := handleIndex E (browser.request j u) b in
    (forall v : string,
        http.parseCookieValue raw = Some v -> v <> EmptyString ->
        http.trace run = [http.EvWrite (indexPage E v)]) /\
    (http.parseCookieValue raw = None ->
     http.trace run = [http.EvWrite (indexPage E "logged-out user")]) /\
    http.service_calls (http.trace run) = [] /\
    http.service run = b /\
    browser.after j run = j.
Proof.
  intros B E j u b raw Hj _ run. subst run.
  rewrite handleIndex_run, request_email_value.
  unfold browser.session. rewrite Hj. cbn [mbind option_bind].
  split; [|split; [|repeat split]].
  - intros v -> Hne. cbn [default from_option id]. unfold template.or.
    destruct (String.eqb_spec v EmptyString) as [Heq|_]; [contradiction|].
    reflexivity.
  - intros ->. reflexivity.
Qed.

Lemma index_trusts_email_cookie_witness :
  let quoted : string :=
    String "034" EmptyString +:+ "root@example.com" +:+ String "034" EmptyString in
  http.trace
    (handleIndex plainEngine
       (browser.request {[ "email" := quoted ]} {| url.Path := "/"; url.Query := ∅ |})
       tt) =
    [http.EvWrite (indexPage plainEngine "root@example.com")] /\
  http.trace
    (handleIndex plainEngine
       (browser.request {[ "email" := "root\@example.com"%string ]}
          {| url.Path := "/"; url.Query := ∅ |})
       tt) =
    [http.EvWrite (indexPage plainEngine "logged-out user")].
Proof.
  intros quoted. split.
  - assert (({[ "email" := quoted ]} : browser.Jar) !! "email"%string = Some quoted)
      as Hjar by (vm_compute; reflexivity).
    destruct (index_trusts_email_cookie unit plainEngine _
                {| url.Path := "/"; url.Query := ∅ |} tt quoted Hjar eq_refl)
      as [Hread _].
    exact (Hread "root@example.com"%string eq_refl ltac:(discriminate)).
  - assert (({[ "email" := "root\@example.com"%string ]} : browser.Jar) !! "email"%string =
            Some "root\@example.com"%string)
      as Hjar by (vm_compute; reflexivity).
    destruct (index_trusts_email_cookie unit plainEngine _
                {| url.Path := "/"; url.Query := ∅ |} tt "root\@example.com" Hjar
                eq_refl)
      as [_ [Hunread _]].
    exact (Hunread eq_refl).
Defined.

(** X14. For every handler [main] registers, every request and every
    state of the service: the handler calls the service at most once, and
    every redirect it issues carries the status 302. *)
Theorem mux_one_call_and_found_redirects :
  forall (B : Type) (client : ssoready.Client B) (E : template.Engine)
         (pattern : string) (h : http.Request -> http.M B unit)
         (r : http.Request) (b : B),
    In (pattern, h) (mux client E) ->
    (List.length (http.service_calls (http.trace (h r b))) <= 1)%nat /\
    forall (target : string) (code : Z),
      In (http.EvRedirect target code) (http.trace (h r b)) -> code = 302.
Proof.
  intros B client E pattern h r b Hin.
  cbn [mux In] in Hin.
  destruct Hin as [Heq|[Heq|[Heq|[Heq|[]]]]];
    injection Heq as _ <-.
  - rewrite handleIndex_run. split; [cbn; lia|].
    intros target code Hev. cbn [http.trace In] in Hev.
    destruct Hev as [Hev|[]]. discriminate Hev.
  - rewrite handleLogout_run. split; [cbn; lia|].
    intros target code Hev. cbn [http.trace In] in Hev.
    destruct Hev as [Hev|[Hev|[]]]; [discriminate Hev|].
    injection Hev as _ <-. reflexivity.
  - destruct (handleSAMLRedirect_cases client r b) as (org & b' & [[u ->]|[v ->]]);
      (split; [cbn; lia|]); intros target code Hev; cbn [http.trace In] in Hev.
    + destruct Hev as [Hev|[Hev|[]]]; [discriminate Hev|].
      injection Hev as _ <-. reflexivity.
    + destruct Hev as [Hev|[]]. discriminate Hev.
  - destruct (handleSSOReadyCallback_cases client r b) as (b' & [[e ->]|[v ->]]);
      (split; [cbn; lia|]); intros target code Hev; cbn [http.trace In] in Hev.
    + destruct Hev as [Hev|[Hev|[Hev|[]]]]; try discriminate Hev.
      injection Hev as _ <-. reflexivity.
    + destruct Hev as [Hev|[]]. discriminate Hev.
Qed.

Lemma mux_one_call_and_found_redirects_witness :
  let r := get "/ssoready-callback" {[ "saml_access_code" := ["abc123"%string] ]} [] in
  (List.length
     (http.service_calls (http.trace (handleSSOReadyCallback demoClient r []))) <= 1)%nat /\
  forall (target : string) (code : Z),
    In (http.EvRedirect target code)
       (http.trace (handleSSOReadyCallback demoClient r [])) ->
    code = 302.
Proof.
  intros r.
  apply (mux_one_call_and_found_redirects (list string) demoClient plainEngine
           "GET /ssoready-callback" (handleSSOReadyCallback demoClient) r []).
  right. right. right. left. reflexivity.
Defined.
